(** * Calendar-event pipeline ([event_extraction.py])

    A shallow embedding of the three-stage pipeline and of its orchestrator
    [process_calendar_request], followed by the properties the specification
    states about them.

    The program talks to an external completion service through the OpenAI
    client and declares its structured outputs as pydantic models.  Both
    libraries are outside the repository: the remote service, the wall clock
    and pydantic's per-type coercion rules are gathered in the [Platform]
    interface and every theorem holds for all of its instances.  What the
    source itself fixes (the three class declarations, the messages of each
    request, the order of the calls, the threshold test, the start-up check)
    is defined here. *)

From Stdlib Require Import ZArith List Floats Lia.
From stdpp Require Import base option list gmap strings pretty.
Import ListNotations.

Set Default Proof Using "Type".
#[local] Set Warnings "-register-all,-inexact-float".
#[local] Open Scope string_scope.
#[local] Open Scope list_scope.

(** ** Data models (lines 19-33) *)

(** [class EventExtraction(BaseModel)].  [confidence_score] is a Python
    [float], an IEEE-754 binary64 number: Rocq's primitive [float]. *)
Record EventExtraction := mkEventExtraction {
  description : string;
  is_calendar_event : bool;
  confidence_score : float;
}.

(** [class EventDetails(BaseModel)]. *)
Record EventDetails := mkEventDetails {
  name : string;
  date : string;
  duration_minutes : Z;
  participants : list string;
}.

(** [class EventConfirmation(BaseModel)]; [calendar_link: Optional[str]]. *)
Record EventConfirmation := mkEventConfirmation {
  confirmation_message : string;
  calendar_link : option string;
}.

(** The class handed to the client as [response_format]. *)
Inductive response_format :=
| EventExtractionT
| EventDetailsT
| EventConfirmationT.

#[global] Instance response_format_eq_dec : EqDecision response_format.
Proof. solve_decision. Defined.

Definition instance_of (T : response_format) : Type :=
  match T with
  | EventExtractionT => EventExtraction
  | EventDetailsT => EventDetails
  | EventConfirmationT => EventConfirmation
  end.

(** ** Structured responses *)

(** The decoded JSON document the service answers with. *)
Inductive json :=
| JNull
| JBool (b : bool)
| JInt (z : Z)
| JFloat (x : float)
| JString (s : string)
| JArray (xs : list json)
| JObject (members : gmap string json).

(** One chat message of a request. *)
Record message := mkMessage {
  role : string;
  content : string;
}.

(** The keyword arguments of [client.beta.chat.completions.parse]. *)
Record request := mkRequest {
  req_model : string;
  req_messages : list message;
  req_response_format : response_format;
}.

(** [OpenAI(api_key=...)]: the client object keeps the value it was given. *)
Record OpenAI := mkOpenAI {
  api_key : option string;
}.

(** [completion.choices[i].message.parsed], typed by the response format. *)
Record ParsedChatCompletionMessage (T : response_format) := mkParsedMessage {
  parsed : option (instance_of T);
}.
Record ParsedChoice (T : response_format) := mkParsedChoice {
  message_of : ParsedChatCompletionMessage T;
}.
Record ParsedChatCompletion (T : response_format) := mkParsedChatCompletion {
  choices : list (ParsedChoice T);
}.
Arguments parsed {T} _.
Arguments mkParsedMessage {T} _.
Arguments message_of {T} _.
Arguments mkParsedChoice {T} _.
Arguments choices {T} _.
Arguments mkParsedChatCompletion {T} _.

(** ** What lies outside the repository *)

(** The external collaborators.  [env] is the state of the outside world (the
    remote service and the wall clock); [post] is one round trip to the
    service: it fails, or answers with one optional JSON content per choice
    (no content: a refusal).  The [validate_*] functions are pydantic's
    coercions for the annotations [str], [bool], [float], [int] and
    [list[...]]; [repr_str] is Python's [repr] on [str]. *)
Class Platform := {
  env : Type;
  api_failure : Type;
  strftime_now : env -> string;
  post : OpenAI -> request -> env -> (api_failure + list (option json)) * env;
  validate_str : json -> option string;
  validate_bool : json -> option bool;
  validate_float : json -> option float;
  validate_int : json -> option Z;
  validate_list : forall A, (json -> option A) -> json -> option (list A);
  repr_str : string -> string;
}.
Arguments validate_list {_ A} _ _.

(** ** Exceptions, observable events and the effect monad *)

Section Model.
Context `{Platform}.

(** The exceptions the module can raise or let through.  [APIError] stands
    for whatever the round trip raises (transport, authentication, quota,
    truncated output); [ValidationError] is pydantic's, raised inside
    [parse] when a content does not fit the requested class.  The
    constructors tell where an exception comes from, not its place among
    Python's exception classes: pydantic's [ValidationError] is a subclass
    of [ValueError], and what the round trip raises may be of any class.
    Nothing below rests on two constructors naming unrelated classes. *)
Inductive exn :=
| ValueError (msg : string)
| AttributeError (msg : string)
| IndexError (msg : string)
| ValidationError (T : response_format)
| APIError (e : api_failure).

(** A call of one of the three stage functions, with its argument.  A
    stage's argument is whatever Python value it is handed, which for
    [generate_confirmation] may be [None]. *)
Inductive call :=
| CallExtract (user_input : string)
| CallParseDetails (descr : string)
| CallConfirm (event_details : option EventDetails).

(** What one run leaves behind, in order: log records, printed lines, the
    requests sent to the service, and (as a history variable) the stage
    functions entered. *)
Inductive event :=
| Log (msg : string)
| Print (line : string)
| Invoke (c : call)
| Request (r : request).

Record world := mkWorld {
  outside : env;
  trace : list event;
}.

(** A Python computation: it runs in a world, and either raises or returns;
    the world it leaves is kept in both cases. *)
Definition M (A : Type) : Type := world -> (exn + A) * world.

Definition ret {A} (a : A) : M A := fun w => (inr a, w).

Definition raise {A} (e : exn) : M A := fun w => (inl e, w).

Definition bind {A B} (m : M A) (k : A -> M B) : M B := fun w =>
  match m w with
  | (inl e, w') => (inl e, w')
  | (inr a, w') => k a w'
  end.

Definition emit (e : event) (w : world) : world :=
  mkWorld (outside w) (trace w ++ [e]).

(** The world once line 73 has logged: the one the extraction stage starts
    in. *)
Definition after_log (w : world) : world := emit (Log "Processing request...") w.

Definition tell (e : event) : M unit := fun w => (inr tt, emit e w).

Definition logger_info (msg : string) : M unit := tell (Log msg).

Definition print (line : string) : M unit := tell (Print line).

(** [datetime.now().strftime("%A, %B %d, %Y")]. *)
Definition today_str : M string := fun w => (inr (strftime_now (outside w)), w).

End Model.

Declare Scope py_scope.
Delimit Scope py_scope with py.
Notation "'let!' x ':=' m 'in' k" := (bind m (fun x => k))
  (at level 10, x name, m at level 100, k at level 200) : py_scope.
Notation "m ';;;' k" := (bind m (fun _ => k))
  (at level 100, k at level 200, right associativity) : py_scope.
#[local] Open Scope py_scope.

Section Program.
Context `{Platform}.

(** *** Attribute access and subscripting on Python values *)

(** [obj.attr] where [obj] may be [None]. *)
Definition getattr {A B} (attr : string) (proj : A -> B) (obj : option A) : M B :=
  match obj with
  | Some a => ret (proj a)
  | None =>
    raise (AttributeError ("'NoneType' object has no attribute '" +:+ attr +:+ "'"))
  end.

(** [xs[i]] on a list. *)
Definition subscript {A} (xs : list A) (i : nat) : M A :=
  match xs !! i with
  | Some a => ret a
  | None => raise (IndexError "list index out of range")
  end.

(** Truth value of an [Optional[str]]: [None] and the empty string are
    false. *)
Definition truthy (v : option string) : bool :=
  match v with
  | None => false
  | Some s => negb (bool_decide (s = ""))
  end.

(** *** Validation against the three class declarations *)

(** A field declared without a default. *)
Definition required {A} (v : json -> option A) (field : string)
    (o : gmap string json) : option A :=
  o !! field ≫= v.

(** A field declared [= default]. *)
Definition defaulted {A} (v : json -> option A) (default : A) (field : string)
    (o : gmap string json) : option A :=
  match o !! field with
  | Some j => v j
  | None => Some default
  end.

(** The annotation [Optional[...]]. *)
Definition Optional {A} (v : json -> option A) (j : json) : option (option A) :=
  match j with
  | JNull => Some None
  | _ => Some <$> v j
  end.

Definition validate_EventExtraction (o : gmap string json) : option EventExtraction :=
  d ← required validate_str "description" o;
  b ← required validate_bool "is_calendar_event" o;
  c ← required validate_float "confidence_score" o;
  Some (mkEventExtraction d b c).

Definition validate_EventDetails (o : gmap string json) : option EventDetails :=
  n ← required validate_str "name" o;
  d ← required validate_str "date" o;
  m ← required validate_int "duration_minutes" o;
  p ← required (validate_list validate_str) "participants" o;
  Some (mkEventDetails n d m p).

Definition validate_EventConfirmation (o : gmap string json) : option EventConfirmation :=
  m ← required validate_str "confirmation_message" o;
  l ← defaulted (Optional validate_str) None "calendar_link" o;
  Some (mkEventConfirmation m l).

(** [T.model_validate]: an instance of [T], or no instance (a validation
    error). *)
Definition model_validate (T : response_format) (j : json) : option (instance_of T) :=
  match j with
  | JObject o =>
    match T return option (instance_of T) with
    | EventExtractionT => validate_EventExtraction o
    | EventDetailsT => validate_EventDetails o
    | EventConfirmationT => validate_EventConfirmation o
    end
  | _ => None
  end.

(** The [parsed] attribute of one choice: [None] without content, the
    validated instance otherwise. *)
Definition parse_choice (T : response_format) (c : option json)
    : option (ParsedChoice T) :=
  match c with
  | None => Some (mkParsedChoice (mkParsedMessage None))
  | Some j => (fun x => mkParsedChoice (mkParsedMessage (Some x))) <$> model_validate T j
  end.

Fixpoint parse_choices (T : response_format) (cs : list (option json))
    : option (list (ParsedChoice T)) :=
  match cs with
  | [] => Some []
  | c :: cs' =>
    p ← parse_choice T c;
    ps ← parse_choices T cs';
    Some (p :: ps)
  end.

(** *** The module's globals and functions *)

(** [model = "gpt-4o-mini-2024-07-18"] (line 17). *)
Definition model : string := "gpt-4o-mini-2024-07-18".

(** The literal [0.7] of line 75: the binary64 number nearest to 7/10. *)
Definition threshold : float := 0.7%float.

Section Stages.
(** [client], the module global built at start-up (line 16). *)
Variable client : OpenAI.

(** [client.beta.chat.completions.parse(model=, messages=, response_format=)]:
    one request, whose failure or answer is raised or returned. *)
Definition completions_parse (mdl : string) (messages : list message)
    (T : response_format) : M (ParsedChatCompletion T) := fun w =>
  let r := mkRequest mdl messages T in
  let tr := trace w ++ [Request r] in
  match post client r (outside w) with
  | (inl e, o') => (inl (APIError e), mkWorld o' tr)
  | (inr cs, o') =>
    match parse_choices T cs with
    | Some chs => (inr (mkParsedChatCompletion chs), mkWorld o' tr)
    | None => (inl (ValidationError T), mkWorld o' tr)
    end
  end.

Definition extraction_messages (today user_input : string) : list message :=
  [ mkMessage "system" ("Today is " +:+ today +:+ ". Is this a calendar event?");
    mkMessage "user" user_input ].

Definition details_messages (today descr : string) : list message :=
  [ mkMessage "system" ("Today is " +:+ today +:+ ". Extract event details.");
    mkMessage "user" descr ].

(** [str(event_details.model_dump())]: the text of the dict of the fields,
    in declaration order. *)
Definition str_model_dump (d : EventDetails) : string :=
  "{'name': " +:+ repr_str (name d) +:+
  ", 'date': " +:+ repr_str (date d) +:+
  ", 'duration_minutes': " +:+ pretty (duration_minutes d) +:+
  ", 'participants': [" +:+ String.concat ", " (repr_str <$> participants d) +:+
  "]}".

Definition confirmation_messages (dump : string) : list message :=
  [ mkMessage "system" "Generate a confirmation. Sign off with 'Susie'.";
    mkMessage "user" dump ].

(** Lines 36-46. *)
Definition extract_event_info (user_input : string) : M (option EventExtraction) :=
  tell (Invoke (CallExtract user_input)) ;;;
  let! today := today_str in
  let! completion :=
    completions_parse model (extraction_messages today user_input) EventExtractionT in
  let! choice := subscript (choices completion) 0 in
  ret (parsed (message_of choice)).

(** Lines 48-58. *)
Definition parse_event_details (descr : string) : M (option EventDetails) :=
  tell (Invoke (CallParseDetails descr)) ;;;
  let! today := today_str in
  let! completion :=
    completions_parse model (details_messages today descr) EventDetailsT in
  let! choice := subscript (choices completion) 0 in
  ret (parsed (message_of choice)).

(** Lines 60-69.  The messages are built, and [model_dump] looked up on the
    argument, before the request is sent. *)
Definition generate_confirmation (event_details : option EventDetails)
    : M (option EventConfirmation) :=
  tell (Invoke (CallConfirm event_details)) ;;;
  let! dump := getattr "model_dump" str_model_dump event_details in
  let! completion :=
    completions_parse model (confirmation_messages dump) EventConfirmationT in
  let! choice := subscript (choices completion) 0 in
  ret (parsed (message_of choice)).

(** Lines 72-79.  [or] evaluates its right operand only when the left one is
    false. *)
Definition process_calendar_request (user_input : string)
    : M (option EventConfirmation) :=
  logger_info "Processing request..." ;;;
  let! extraction := extract_event_info user_input in
  let! is_event := getattr "is_calendar_event" is_calendar_event extraction in
  let! rejected :=
    (if negb is_event then ret true
     else let! score := getattr "confidence_score" confidence_score extraction in
          ret (score <? threshold)%float) in
  if (rejected : bool) then
    logger_info "Not a calendar event or low confidence." ;;;
    ret None
  else
    let! descr := getattr "description" description extraction in
    let! details := parse_event_details descr in
    generate_confirmation details.

(** What the three stages have in common once their messages are built
    (lines 38-46, 50-58 and 61-69): one call of [parse], then
    [.choices[0].message.parsed].  Not a function of the source: it names
    the shared tail for the lemmas below. *)
Definition first_parsed (T : response_format) (msgs : list message)
    : M (option (instance_of T)) :=
  let! completion := completions_parse model msgs T in
  let! choice := subscript (choices completion) 0 in
  ret (parsed (message_of choice)).

(** The three places where a run of [process_calendar_request user_input]
    started in [w] calls the client: [call_site user_input w T msgs w_at]
    holds when the run comes to ask for the class [T] with the messages
    [msgs], the world being [w_at] at that moment. *)
Inductive call_site (user_input : string) (w : world)
    : response_format -> list message -> world -> Prop :=
| site_extraction :
    call_site user_input w EventExtractionT
      (extraction_messages (strftime_now (outside w)) user_input)
      (emit (Invoke (CallExtract user_input)) (after_log w))
| site_details extraction w1 :
    extract_event_info user_input (after_log w) = (inr (Some extraction), w1) ->
    is_calendar_event extraction = true ->
    (confidence_score extraction <? threshold)%float = false ->
    call_site user_input w EventDetailsT
      (details_messages (strftime_now (outside w1)) (description extraction))
      (emit (Invoke (CallParseDetails (description extraction))) w1)
| site_confirmation extraction w1 details w2 :
    extract_event_info user_input (after_log w) = (inr (Some extraction), w1) ->
    is_calendar_event extraction = true ->
    (confidence_score extraction <? threshold)%float = false ->
    parse_event_details (description extraction) w1 = (inr (Some details), w2) ->
    call_site user_input w EventConfirmationT
      (confirmation_messages (str_model_dump details))
      (emit (Invoke (CallConfirm (Some details))) w2).

End Stages.

(** *** Start-up and entry point *)

(** The message of the [ValueError] of line 15. *)
Definition credential_diagnostic : string :=
  "Please set OPENAI_API_KEY in your environment (check 1Password or Codespaces Secrets).".

(** [os.getenv]. *)
Definition getenv (environ : gmap string string) (key : string) : option string :=
  environ !! key.

(** Lines 13-16: the credential check and the construction of the client. *)
Definition startup (environ : gmap string string) : exn + OpenAI :=
  let key := getenv environ "OPENAI_API_KEY" in
  if negb (truthy key) then inl (ValueError credential_diagnostic)
  else inr (mkOpenAI key).

Definition example_input : string :=
  "Let's schedule a 1h team meeting next Tuesday at 2pm with Alice and Bob to discuss the project roadmap.".

(** The module run as a script: the top level, then lines 81-89. *)
Definition main (environ : gmap string string) : M unit :=
  match startup environ with
  | inl e => raise e
  | inr client =>
    let! result := process_calendar_request client example_input in
    match result with
    | Some r =>
      print ("Confirmation: " +:+ confirmation_message r) ;;;
      if truthy (calendar_link r)
      then print ("Calendar Link: " +:+ default "" (calendar_link r))
      else ret tt
    | None => print "This doesn't appear to be a calendar event."
    end
  end.

(** *** Reading a trace *)

Definition invocations (tr : list event) : list call :=
  omap (fun e => match e with Invoke c => Some c | _ => None end) tr.

Definition requests (tr : list event) : list request :=
  omap (fun e => match e with Request r => Some r | _ => None end) tr.

(** Number of requests asking for the class [T]: the call count of the
    stage that owns [T]. *)
Definition call_count (T : response_format) (tr : list event) : nat :=
  length (filter (fun r => req_response_format r = T) (requests tr)).

(** The lines printed on standard output. *)
Definition printed (tr : list event) : list string :=
  omap (fun e => match e with Print line => Some line | _ => None end) tr.

(** The request each stage sends (lines 38-45, 50-57 and 61-68). *)
Definition extraction_request (today user_input : string) : request :=
  mkRequest model (extraction_messages today user_input) EventExtractionT.

Definition details_request (today descr : string) : request :=
  mkRequest model (details_messages today descr) EventDetailsT.

Definition confirmation_request (details : EventDetails) : request :=
  mkRequest model (confirmation_messages (str_model_dump details))
    EventConfirmationT.

(** The events of a run up to the moment the extraction is in. *)
Definition extraction_events (today user_input : string) : list event :=
  [Log "Processing request..."; Invoke (CallExtract user_input);
   Request (extraction_request today user_input)].

(** The events the detail-parsing stage adds. *)
Definition details_events (today descr : string) : list event :=
  [Invoke (CallParseDetails descr); Request (details_request today descr)].

(** The five ways a run of [process_calendar_request user_input] can go,
    each with the events it adds to the trace and its outcome: the
    extraction stage raises or hands back [None]; the extraction is
    rejected; the detail-parsing stage raises; it hands back [None]; the
    confirmation stage is called on details and its outcome is the run's. *)
Inductive run_shape (user_input : string)
    : list event -> exn + option EventConfirmation -> Prop :=
| run_stops_at_extraction today e :
    run_shape user_input (extraction_events today user_input) (inl e)
| run_rejected today :
    run_shape user_input
      (extraction_events today user_input
       ++ [Log "Not a calendar event or low confidence."])
      (inr None)
| run_stops_at_details today extraction today' e :
    is_calendar_event extraction = true ->
    (confidence_score extraction <? threshold)%float = false ->
    run_shape user_input
      (extraction_events today user_input
       ++ details_events today' (description extraction))
      (inl e)
| run_without_details today extraction today' :
    is_calendar_event extraction = true ->
    (confidence_score extraction <? threshold)%float = false ->
    run_shape user_input
      (extraction_events today user_input
       ++ details_events today' (description extraction)
       ++ [Invoke (CallConfirm None)])
      (inl (AttributeError "'NoneType' object has no attribute 'model_dump'"))
| run_to_confirmation today extraction today' details r :
    is_calendar_event extraction = true ->
    (confidence_score extraction <? threshold)%float = false ->
    run_shape user_input
      (extraction_events today user_input
       ++ details_events today' (description extraction)
       ++ [Invoke (CallConfirm (Some details));
           Request (confirmation_request details)])
      r.

End Program.

(** ** A test double *)

(** A scripted completion service: every round trip consumes the next
    scripted outcome.  Its validators accept exactly the JSON value of the
    annotated type. *)
Module Stub.

Definition strict_str (j : json) : option string :=
  match j with JString s => Some s | _ => None end.

Definition strict_bool (j : json) : option bool :=
  match j with JBool b => Some b | _ => None end.

Definition strict_float (j : json) : option float :=
  match j with JFloat x => Some x | _ => None end.

Definition strict_int (j : json) : option Z :=
  match j with JInt z => Some z | _ => None end.

Definition strict_list {A} (v : json -> option A) (j : json) : option (list A) :=
  match j with JArray xs => mapM v xs | _ => None end.

Definition script : Type := list (string + list (option json)).

Definition next (_ : OpenAI) (_ : request) (q : script)
    : (string + list (option json)) * script :=
  match q with
  | [] => (inl "script exhausted", [])
  | outcome :: q' => (outcome, q')
  end.

Definition scripted : Platform := {|
  env := script;
  api_failure := string;
  strftime_now := fun _ => "Wednesday, November 04, 2026";
  post := next;
  validate_str := strict_str;
  validate_bool := strict_bool;
  validate_float := strict_float;
  validate_int := strict_int;
  validate_list := @strict_list;
  repr_str := fun s => "'" +:+ s +:+ "'";
|}.

Definition obj (members : list (string * json)) : option json :=
  Some (JObject (list_to_map members)).

Definition extraction_json (e : EventExtraction) : option json :=
  obj [("description", JString (description e));
       ("is_calendar_event", JBool (is_calendar_event e));
       ("confidence_score", JFloat (confidence_score e))].

Definition team_meeting : EventDetails :=
  mkEventDetails "Team Meeting" "2026-11-10T14:00:00" 60 ["Alice"; "Bob"].

Definition details_json : option json :=
  obj [("name", JString "Team Meeting"); ("date", JString "2026-11-10T14:00:00");
       ("duration_minutes", JInt 60);
       ("participants", JArray [JString "Alice"; JString "Bob"])].

Definition booked : EventConfirmation :=
  mkEventConfirmation "Your meeting is booked. Susie" None.

Definition confirmation_json : option json :=
  obj [("confirmation_message", JString "Your meeting is booked. Susie")].

Definition key : OpenAI := mkOpenAI (Some "sk-test").

Definition start (q : script) : @world scripted := @mkWorld scripted q [].

(** The extraction the service is scripted to give, up to the two fields
    the orchestrator tests. *)
Definition classified (b : bool) (c : float) : EventExtraction :=
  mkEventExtraction "1h team meeting next Tuesday at 2pm with Alice and Bob" b c.

(** A service that answers the three requests of one run. *)
Definition answers (b : bool) (c : float) : script :=
  [inr [extraction_json (classified b c)]; inr [details_json];
   inr [confirmation_json]].

(** A service that answers the first [n] requests and fails the next one. *)
Definition fails_after (n : nat) : script :=
  take n (answers true 0.95%float) ++ [inl "quota exceeded"].

Definition weather : string := "What's the weather today?".

(** The worlds a run from [w] is in when the extraction stage, and then the
    detail-parsing stage on [descr], are over. *)
Definition extracted (u : string) (w : @world scripted) : @world scripted :=
  (@extract_event_info scripted key u (after_log w)).2.

Definition detailed (u descr : string) (w : @world scripted) : @world scripted :=
  (@parse_event_details scripted key descr (extracted u w)).2.

(** Details as the service may well give them: a negative duration, a date
    that is no date. *)
Definition odd_details : EventDetails :=
  mkEventDetails "Team Meeting" "next Tuesday" (-60) [].

Definition odd_details_json : option json :=
  obj [("name", JString "Team Meeting"); ("date", JString "next Tuesday");
       ("duration_minutes", JInt (-60)); ("participants", JArray [])].

(** An answer to the detail-parsing request that has no [date]. *)
Definition undated : gmap string json :=
  list_to_map
    [("name", JString "Team Meeting"); ("duration_minutes", JInt 60);
     ("participants", JArray [JString "Alice"; JString "Bob"])].

(** A service whose [n]-th answer (from 0) is [last], the earlier ones being
    those of [answers true 0.95]. *)
Definition ends_with (n : nat) (last : list (option json)) : script :=
  take n (answers true 0.95%float) ++ [inr last].

End Stub.

(** ** Properties *)

(** *** Comparison of binary64 numbers *)

Lemma SFcompare_antisym (x y : spec_float) :
  SFcompare y x = option_map CompOpp (SFcompare x y).
Proof.
  destruct x as [s|s| |s m e], y as [s'|s'| |s' m' e']; simpl; try reflexivity;
    try (destruct s; reflexivity); try (destruct s'; reflexivity);
    try (destruct s, s'; reflexivity).
  change (Pos.compare_cont Eq m m') with (m ?= m')%positive.
  change (Pos.compare_cont Eq m' m) with (m' ?= m)%positive.
  rewrite (Z.compare_antisym e' e), (Pos.compare_antisym m' m).
  destruct s, s'; simpl; try reflexivity;
    destruct (e' ?= e)%Z; simpl; try reflexivity;
    destruct (m' ?= m)%positive; reflexivity.
Qed.

(** [y <= x] excludes [x < y], also when NaN is around. *)
Lemma leb_not_ltb (x y : float) :
  (y <=? x)%float = true -> (x <? y)%float = false.
Proof.
  rewrite leb_spec, ltb_spec. unfold SFleb, SFltb.
  rewrite (SFcompare_antisym (Prim2SF y) (Prim2SF x)).
  destruct (SFcompare (Prim2SF y) (Prim2SF x)) as [[]|]; simpl; congruence.
Qed.

Section Properties.
Context `{Platform}.
Variable client : OpenAI.

Implicit Types (w : world) (u : string).

(** *** Traces *)

Lemma invocations_app (tr1 tr2 : list event) :
  invocations (tr1 ++ tr2) = invocations tr1 ++ invocations tr2.
Proof. apply omap_app. Qed.

Lemma requests_app (tr1 tr2 : list event) :
  requests (tr1 ++ tr2) = requests tr1 ++ requests tr2.
Proof. apply omap_app. Qed.

Lemma call_count_app T (tr1 tr2 : list event) :
  call_count T (tr1 ++ tr2) = call_count T tr1 + call_count T tr2.
Proof.
  unfold call_count. now rewrite requests_app, filter_app, length_app.
Qed.

(** *** One request per call of [parse] *)

Lemma completions_parse_trace mdl msgs T w r w' :
  completions_parse client mdl msgs T w = (r, w') ->
  trace w' = trace w ++ [Request (mkRequest mdl msgs T)].
Proof.
  unfold completions_parse.
  destruct (post _ _ _) as [[e|cs] o']; [|destruct (parse_choices T cs)];
    intros [= <- <-]; reflexivity.
Qed.

(** *** The stage functions, one step at a time *)

Lemma first_parsed_eq T msgs w :
  first_parsed client T msgs w =
  match completions_parse client model msgs T w with
  | (inl e, w') => (inl e, w')
  | (inr completion, w') =>
    match choices completion with
    | [] => (inl (IndexError "list index out of range"), w')
    | choice :: _ => (inr (parsed (message_of choice)), w')
    end
  end.
Proof.
  unfold first_parsed, bind.
  destruct (completions_parse _ _ _ _ _) as [[e|completion] w']; [reflexivity|].
  unfold subscript. destruct (choices completion); reflexivity.
Qed.

Lemma first_parsed_trace T msgs w r w' :
  first_parsed client T msgs w = (r, w') ->
  trace w' = trace w ++ [Request (mkRequest model msgs T)].
Proof.
  rewrite first_parsed_eq.
  destruct (completions_parse _ _ _ _ _) as [[e|completion] w1] eqn:E.
  - intros [= <- <-]. eapply completions_parse_trace, E.
  - destruct (choices completion); intros [= <- <-];
      eapply completions_parse_trace, E.
Qed.

Lemma extract_event_info_eq u w :
  extract_event_info client u w =
  first_parsed client EventExtractionT (extraction_messages (strftime_now (outside w)) u)
    (emit (Invoke (CallExtract u)) w).
Proof. reflexivity. Qed.

Lemma parse_event_details_eq descr w :
  parse_event_details client descr w =
  first_parsed client EventDetailsT (details_messages (strftime_now (outside w)) descr)
    (emit (Invoke (CallParseDetails descr)) w).
Proof. reflexivity. Qed.

Lemma generate_confirmation_Some_eq details w :
  generate_confirmation client (Some details) w =
  first_parsed client EventConfirmationT (confirmation_messages (str_model_dump details))
    (emit (Invoke (CallConfirm (Some details))) w).
Proof. reflexivity. Qed.

Lemma generate_confirmation_None_eq w :
  generate_confirmation client None w =
  (inl (AttributeError "'NoneType' object has no attribute 'model_dump'"),
   emit (Invoke (CallConfirm None)) w).
Proof. reflexivity. Qed.

Lemma extract_event_info_trace u w r w' :
  extract_event_info client u w = (r, w') ->
  trace w' = trace w ++
    [Invoke (CallExtract u);
     Request (mkRequest model (extraction_messages (strftime_now (outside w)) u)
                EventExtractionT)].
Proof.
  rewrite extract_event_info_eq. intros E.
  rewrite (first_parsed_trace EventExtractionT _ _ _ _ E). cbn. now rewrite <- app_assoc.
Qed.

Lemma parse_event_details_trace descr w r w' :
  parse_event_details client descr w = (r, w') ->
  trace w' = trace w ++
    [Invoke (CallParseDetails descr);
     Request (mkRequest model (details_messages (strftime_now (outside w)) descr)
                EventDetailsT)].
Proof.
  rewrite parse_event_details_eq. intros E.
  rewrite (first_parsed_trace EventDetailsT _ _ _ _ E). cbn. now rewrite <- app_assoc.
Qed.

Lemma generate_confirmation_trace details w r w' :
  generate_confirmation client details w = (r, w') ->
  trace w' = trace w ++
    Invoke (CallConfirm details) ::
    match details with
    | Some d =>
      [Request (mkRequest model (confirmation_messages (str_model_dump d))
                  EventConfirmationT)]
    | None => []
    end.
Proof.
  destruct details as [d|].
  - rewrite generate_confirmation_Some_eq. intros E.
    rewrite (first_parsed_trace EventConfirmationT _ _ _ _ E). cbn. now rewrite <- app_assoc.
  - rewrite generate_confirmation_None_eq. now intros [= <- <-].
Qed.

(** *** The orchestrator after the extraction stage *)

Lemma process_extraction_raises u w e w1 :
  extract_event_info client u (after_log w) = (inl e, w1) ->
  process_calendar_request client u w = (inl e, w1).
Proof.
  intros E. unfold process_calendar_request, bind at 1 2, logger_info, tell.
  fold (after_log w). now rewrite E.
Qed.

Lemma process_extraction_None u w w1 :
  extract_event_info client u (after_log w) = (inr None, w1) ->
  process_calendar_request client u w =
  (inl (AttributeError "'NoneType' object has no attribute 'is_calendar_event'"), w1).
Proof.
  intros E. unfold process_calendar_request, bind at 1 2, logger_info, tell.
  fold (after_log w). now rewrite E.
Qed.

Lemma process_extraction_Some u w extraction w1 :
  extract_event_info client u (after_log w) = (inr (Some extraction), w1) ->
  process_calendar_request client u w =
  if negb (is_calendar_event extraction)
     || (confidence_score extraction <? threshold)%float
  then (inr None, emit (Log "Not a calendar event or low confidence.") w1)
  else (let! details := parse_event_details client (description extraction) in
        generate_confirmation client details) w1.
Proof.
  intros E. unfold process_calendar_request, bind at 1 2, logger_info, tell.
  fold (after_log w). rewrite E. cbn.
  destruct (is_calendar_event extraction); cbn; [|reflexivity].
  destruct (confidence_score extraction <? threshold)%float; reflexivity.
Qed.

(** *** The orchestrator's decisions *)

(** C1.  Whenever the extraction stage's result says "not a calendar event",
    or carries a confidence score below 0.7, [process_calendar_request]
    returns [None]: it returns (it does not raise), after logging the
    rejection, and nothing else happens. *)
Theorem process_rejects_returns_None u w extraction w1 :
  extract_event_info client u (after_log w) = (inr (Some extraction), w1) ->
  is_calendar_event extraction = false
  \/ (confidence_score extraction <? threshold)%float = true ->
  process_calendar_request client u w =
  (inr None, emit (Log "Not a calendar event or low confidence.") w1).
Proof.
  intros E Hrej. rewrite (process_extraction_Some _ _ _ _ E).
  destruct Hrej as [-> | ->]; [reflexivity|].
  now rewrite orb_true_r.
Qed.

(** C2.  When the extraction says "calendar event" with a confidence score
    of at least 0.7 and the detail-parsing stage returns, the orchestrator's
    outcome is the confirmation stage's outcome on the returned details,
    unchanged; over the whole run the stage functions entered are, in
    order, the extraction on the input, the detail parsing on the
    extraction's [description], and the confirmation on the details, each
    once. *)
Theorem process_accepts_runs_stages_in_order u w extraction w1 details w2 :
  extract_event_info client u (after_log w) = (inr (Some extraction), w1) ->
  is_calendar_event extraction = true ->
  (threshold <=? confidence_score extraction)%float = true ->
  parse_event_details client (description extraction) w1 = (inr details, w2) ->
  process_calendar_request client u w = generate_confirmation client details w2
  /\ invocations (trace (process_calendar_request client u w).2) =
     invocations (trace w) ++
     [CallExtract u; CallParseDetails (description extraction); CallConfirm details].
Proof.
  intros E1 Hev Hconf E2.
  assert (Hrun : process_calendar_request client u w
                 = generate_confirmation client details w2).
  { rewrite (process_extraction_Some _ _ _ _ E1), Hev, (leb_not_ltb _ _ Hconf).
    cbn. unfold bind. now rewrite E2. }
  split; [exact Hrun|]. rewrite Hrun.
  destruct (generate_confirmation client details w2) as [r w3] eqn:E3. cbn.
  rewrite (generate_confirmation_trace _ _ _ _ E3),
    (parse_event_details_trace _ _ _ _ E2), (extract_event_info_trace _ _ _ _ E1).
  cbn. rewrite !invocations_app, <- !app_assoc. cbn.
  destruct details; reflexivity.
Qed.

(** C3.  At each of the three places where the orchestrator calls the
    client, a call that raises makes [process_calendar_request] raise the
    very same exception, in the world the failed call left: the trace ends
    with that single request, so nothing is sent again and no later stage
    is entered. *)
Theorem client_failure_propagates u w T msgs w_at e w' :
  call_site client u w T msgs w_at ->
  completions_parse client model msgs T w_at = (inl e, w') ->
  process_calendar_request client u w = (inl e, w')
  /\ trace w' = trace w_at ++ [Request (mkRequest model msgs T)].
Proof.
  intros Hsite Hfail. split; [|exact (completions_parse_trace _ _ _ _ _ _ Hfail)].
  destruct Hsite as [|extraction w1 E1 Hev Hconf
                     |extraction w1 details w2 E1 Hev Hconf E2].
  - apply process_extraction_raises.
    rewrite extract_event_info_eq, first_parsed_eq. cbn. now rewrite Hfail.
  - rewrite (process_extraction_Some _ _ _ _ E1), Hev, Hconf. cbn.
    unfold bind. rewrite parse_event_details_eq, first_parsed_eq.
    now rewrite Hfail.
  - rewrite (process_extraction_Some _ _ _ _ E1), Hev, Hconf. cbn.
    unfold bind. rewrite E2, generate_confirmation_Some_eq, first_parsed_eq.
    now rewrite Hfail.
Qed.

(** C4.  A confidence score equal to the literal 0.7 passes the test: with
    [is_calendar_event] true the orchestrator goes on with the detail
    parsing on the extraction's [description] and then the confirmation,
    and the detail-parsing stage is entered. *)
Theorem threshold_is_inclusive u w extraction w1 :
  extract_event_info client u (after_log w) = (inr (Some extraction), w1) ->
  is_calendar_event extraction = true ->
  confidence_score extraction = threshold ->
  process_calendar_request client u w =
    (let! details := parse_event_details client (description extraction) in
     generate_confirmation client details) w1
  /\ CallParseDetails (description extraction)
     ∈ invocations (trace (process_calendar_request client u w).2).
Proof.
  intros E1 Hev Hconf.
  assert (Hrun : process_calendar_request client u w =
    (let! details := parse_event_details client (description extraction) in
     generate_confirmation client details) w1).
  { now rewrite (process_extraction_Some _ _ _ _ E1), Hev, Hconf. }
  split; [exact Hrun|]. rewrite Hrun. unfold bind.
  destruct (parse_event_details _ _ _) as [[e|details] w2] eqn:E2; cbn [snd].
  - rewrite (parse_event_details_trace _ _ _ _ E2), invocations_app. cbn.
    apply elem_of_app. right. constructor.
  - destruct (generate_confirmation client details w2) as [r w3] eqn:E3.
    cbn [snd].
    rewrite (generate_confirmation_trace _ _ _ _ E3),
      (parse_event_details_trace _ _ _ _ E2), !invocations_app. cbn.
    apply elem_of_app. left. apply elem_of_app. right. constructor.
Qed.

(** C5.  When the extraction says "not a calendar event", the orchestrator
    returns [None]; the only stage function entered during the run is the
    extraction, and the run adds no request for [EventDetails] and none for
    [EventConfirmation]: both call counts are what they were. *)
Theorem not_an_event_skips_later_stages u w extraction w1 :
  extract_event_info client u (after_log w) = (inr (Some extraction), w1) ->
  is_calendar_event extraction = false ->
  exists w',
    process_calendar_request client u w = (inr None, w')
    /\ invocations (trace w') = invocations (trace w) ++ [CallExtract u]
    /\ call_count EventDetailsT (trace w') = call_count EventDetailsT (trace w)
    /\ call_count EventConfirmationT (trace w')
       = call_count EventConfirmationT (trace w).
Proof.
  intros E1 Hev.
  exists (emit (Log "Not a calendar event or low confidence.") w1). split.
  { now rewrite (process_extraction_Some _ _ _ _ E1), Hev. }
  assert (Htr : trace (emit (Log "Not a calendar event or low confidence.") w1)
    = trace w ++
      [Log "Processing request..."; Invoke (CallExtract u);
       Request (mkRequest model
                  (extraction_messages (strftime_now (outside (after_log w))) u)
                  EventExtractionT);
       Log "Not a calendar event or low confidence."]).
  { unfold emit at 1. cbn [trace].
    rewrite (extract_event_info_trace _ _ _ _ E1). cbn [after_log emit trace].
    now rewrite <- !app_assoc. }
  rewrite Htr, invocations_app, !call_count_app.
  split; [reflexivity|].
  match goal with |- context [call_count _ (?ev :: ?evs)] =>
    assert (Hnone : forall T, T <> EventExtractionT -> call_count T (ev :: evs) = 0)
  end.
  { intros T HT. unfold call_count. cbn.
    rewrite decide_False by congruence. reflexivity. }
  rewrite !Hnone by discriminate. lia.
Qed.

(** C9.  When the extraction stage's call of the client returns a completion
    whose first choice has [parsed = None], the stage returns that [None],
    and the orchestrator then raises [AttributeError] on reading
    [is_calendar_event]: it does not return the "not an event" [None]. *)
Theorem absent_payload_raises_AttributeError u w completion choice rest w1 :
  completions_parse client model
    (extraction_messages (strftime_now (outside w)) u) EventExtractionT
    (emit (Invoke (CallExtract u)) (after_log w)) = (inr completion, w1) ->
  choices completion = choice :: rest ->
  parsed (message_of choice) = None ->
  extract_event_info client u (after_log w) = (inr None, w1)
  /\ process_calendar_request client u w =
     (inl (AttributeError "'NoneType' object has no attribute 'is_calendar_event'"),
      w1).
Proof.
  intros Ecall Hchoices Hparsed.
  assert (E : extract_event_info client u (after_log w) = (inr None, w1)).
  { rewrite extract_event_info_eq, first_parsed_eq. cbn.
    now rewrite Ecall, Hchoices, Hparsed. }
  split; [exact E|]. now apply process_extraction_None.
Qed.

(** X1.  The same absence one stage later: when the detail-parsing stage
    hands back [None], the orchestrator passes it on and
    [generate_confirmation] raises [AttributeError] on [model_dump], before
    it sends any request. *)
Lemma absent_details_raise_AttributeError u w extraction w1 w2 :
  extract_event_info client u (after_log w) = (inr (Some extraction), w1) ->
  is_calendar_event extraction = true ->
  (confidence_score extraction <? threshold)%float = false ->
  parse_event_details client (description extraction) w1 = (inr None, w2) ->
  process_calendar_request client u w =
  (inl (AttributeError "'NoneType' object has no attribute 'model_dump'"),
   emit (Invoke (CallConfirm None)) w2).
Proof.
  intros E1 Hev Hconf E2.
  rewrite (process_extraction_Some _ _ _ _ E1), Hev, Hconf. cbn.
  unfold bind. now rewrite E2.
Qed.

(** X2.  At the last stage nobody reads the value: when the confirmation
    stage hands back [None] the orchestrator returns that [None], the very
    value it returns for an input that is no calendar event. *)
Lemma absent_confirmation_is_returned u w extraction w1 details w2 w3 :
  extract_event_info client u (after_log w) = (inr (Some extraction), w1) ->
  is_calendar_event extraction = true ->
  (confidence_score extraction <? threshold)%float = false ->
  parse_event_details client (description extraction) w1 = (inr details, w2) ->
  generate_confirmation client details w2 = (inr None, w3) ->
  process_calendar_request client u w = (inr None, w3).
Proof.
  intros E1 Hev Hconf E2 E3.
  rewrite (process_extraction_Some _ _ _ _ E1), Hev, Hconf. cbn.
  unfold bind. now rewrite E2.
Qed.

(** *** What the stages hand back *)

(** The class [EventExtraction] puts no bound on [confidence_score]: any
    number the [float] coercion yields is kept as it is. *)
Lemma validate_EventExtraction_unbounded (o : gmap string json) d b c :
  required validate_str "description" o = Some d ->
  required validate_bool "is_calendar_event" o = Some b ->
  required validate_float "confidence_score" o = Some c ->
  model_validate EventExtractionT (JObject o) = Some (mkEventExtraction d b c).
Proof.
  intros Hd Hb Hc. cbn. unfold validate_EventExtraction.
  now rewrite Hd, Hb, Hc.
Qed.

(** C7.  Whatever completion the client returns to the extraction stage, the
    stage returns the [parsed] value of its first choice as it is, in the
    world the client left: nothing is checked, clamped or rebuilt on the
    way, whatever the [confidence_score] in it. *)
Theorem extract_returns_client_value u w completion choice rest w1 :
  completions_parse client model
    (extraction_messages (strftime_now (outside w)) u) EventExtractionT
    (emit (Invoke (CallExtract u)) w) = (inr completion, w1) ->
  choices completion = choice :: rest ->
  extract_event_info client u w = (inr (parsed (message_of choice)), w1).
Proof.
  intros Ecall Hchoices.
  rewrite extract_event_info_eq, first_parsed_eq.
  now rewrite Ecall, Hchoices.
Qed.

(** C8.  Let the service answer the confirmation stage's request with a
    JSON object as first content.  When the object has a valid
    [confirmation_message] and no [calendar_link] member (and the other
    choices, if any, are valid), the stage returns: its result is the
    [EventConfirmation] with that message and with [calendar_link = None].
    Whatever the object, any result the stage returns is an
    [EventConfirmation] whose [confirmation_message] is the validated
    member of that name, and whose [calendar_link] is [None] when the object
    has no such member; an object without [confirmation_message] gives no
    result at all but a validation error. *)
Theorem confirmation_link_defaults_to_None details w o rest out' :
  post client
    (mkRequest model (confirmation_messages (str_model_dump details))
       EventConfirmationT) (outside w)
    = (inr (Some (JObject o) :: rest), out') ->
  (forall m,
     required validate_str "confirmation_message" o = Some m ->
     o !! "calendar_link" = None ->
     is_Some (parse_choices EventConfirmationT rest) ->
     generate_confirmation client (Some details) w =
     (inr (Some (mkEventConfirmation m None)),
      mkWorld out'
        (trace w ++ [Invoke (CallConfirm (Some details));
                     Request (confirmation_request details)])))
  /\ (forall result w',
        generate_confirmation client (Some details) w = (inr result, w') ->
        exists r, result = Some r
          /\ required validate_str "confirmation_message" o
             = Some (confirmation_message r)
          /\ (o !! "calendar_link" = None -> calendar_link r = None))
  /\ (o !! "confirmation_message" = None ->
      (generate_confirmation client (Some details) w).1
      = inl (ValidationError EventConfirmationT)).
Proof.
  intros Hpost.
  rewrite generate_confirmation_Some_eq, first_parsed_eq.
  unfold completions_parse. cbn [emit outside trace]. rewrite Hpost.
  cbn [parse_choices parse_choice model_validate].
  unfold validate_EventConfirmation, defaulted.
  split.
  { intros m Hm Hlink [chs Hrest]. rewrite Hm, Hlink, Hrest. cbn.
    now rewrite <- app_assoc. }
  destruct (required validate_str "confirmation_message" o) as [m|] eqn:Hm;
    cbn [mbind option_bind fmap option_fmap option_map].
  - split; [|intros Hnone; unfold required in Hm; now rewrite Hnone in Hm].
    destruct (o !! "calendar_link") as [j|] eqn:Hl.
    + destruct (Optional validate_str j) as [l|];
        cbn [mbind option_bind fmap option_fmap option_map];
        [destruct (parse_choices EventConfirmationT rest)|];
        cbn [mbind option_bind choices]; intros result w' [= <- <-] || discriminate.
      eexists. repeat split. discriminate.
    + cbn [mbind option_bind fmap option_fmap option_map].
      destruct (parse_choices EventConfirmationT rest);
        cbn [mbind option_bind choices]; intros result w' [= <- <-] || discriminate.
      eexists. repeat split.
  - split; [intros result w'; discriminate | reflexivity].
Qed.

End Properties.

(** *** Start-up *)

Section Startup.
Context `{Platform}.



(** C10.  Start-up builds the client exactly when [OPENAI_API_KEY] is set to
    a non-empty string; set to the empty string, it is refused as an unset
    one is, with the same [ValueError]. *)
Theorem startup_iff_credential_nonempty (environ : gmap string string) :
  ((exists c, startup environ = inr c) <->
   (exists s, environ !! "OPENAI_API_KEY" = Some s /\ s <> ""))
  /\ startup (<["OPENAI_API_KEY" := ""]> environ)
     = startup (delete "OPENAI_API_KEY" environ)
  /\ startup (<["OPENAI_API_KEY" := ""]> environ)
     = inl (ValueError credential_diagnostic).
Proof.
  split; [|split].
  - unfold startup, getenv, truthy.
    destruct (environ !! "OPENAI_API_KEY") as [s|]; cbn.
    + destruct (bool_decide_reflect (s = "")) as [->|Hne]; cbn.
      * split; [intros [c [=]] | intros (s & [= <-] & Hs); now destruct Hs].
      * split; [exists s; now split | eauto].
    + split; [intros [c [=]] | intros (s & [=] & _)].
  - unfold startup, getenv.
    now rewrite lookup_insert_eq, lookup_delete_eq.
  - unfold startup, getenv. now rewrite lookup_insert_eq.
Qed.

End Startup.

(** ** The properties on the test double *)

Section OnTheTestDouble.
#[local] Existing Instance Stub.scripted.

(** A score of 0.5 on an event: rejected. *)
Lemma process_rejects_returns_None_witness :
  let w := Stub.start (Stub.answers true 0.5%float) in
  process_calendar_request Stub.key example_input w =
  (inr None,
   emit (Log "Not a calendar event or low confidence.")
     (Stub.extracted example_input w)).
Proof.
  apply (process_rejects_returns_None Stub.key example_input
           (Stub.start (Stub.answers true 0.5%float))
           (Stub.classified true 0.5%float)).
  - vm_compute; reflexivity.
  - right. reflexivity.
Defined.

(** The scenario of the specification: an event at 0.95. *)
Lemma process_accepts_runs_stages_in_order_witness :
  let w := Stub.start (Stub.answers true 0.95%float) in
  let descr := description (Stub.classified true 0.95%float) in
  process_calendar_request Stub.key example_input w
  = generate_confirmation Stub.key (Some Stub.team_meeting)
      (Stub.detailed example_input descr w)
  /\ invocations (trace (process_calendar_request Stub.key example_input w).2) =
     invocations (trace w) ++
     [CallExtract example_input; CallParseDetails descr;
      CallConfirm (Some Stub.team_meeting)].
Proof.
  apply (process_accepts_runs_stages_in_order Stub.key example_input
           (Stub.start (Stub.answers true 0.95%float))
           (Stub.classified true 0.95%float)
           (Stub.extracted example_input (Stub.start (Stub.answers true 0.95%float)))).
  - vm_compute; reflexivity.
  - reflexivity.
  - reflexivity.
  - vm_compute; reflexivity.
Defined.

(** The service fails the first, the second and the third request in turn;
    each time the run ends with that failure. *)
Lemma client_failure_propagates_witness :
  (let w := Stub.start (Stub.fails_after 0) in
   process_calendar_request Stub.key example_input w
   = (inl (APIError "quota exceeded"),
      (process_calendar_request Stub.key example_input w).2))
  /\ (let w := Stub.start (Stub.fails_after 1) in
      process_calendar_request Stub.key example_input w
      = (inl (APIError "quota exceeded"),
         (process_calendar_request Stub.key example_input w).2))
  /\ (let w := Stub.start (Stub.fails_after 2) in
      process_calendar_request Stub.key example_input w
      = (inl (APIError "quota exceeded"),
         (process_calendar_request Stub.key example_input w).2)).
Proof.
  split; [|split].
  - apply (client_failure_propagates Stub.key example_input
             (Stub.start (Stub.fails_after 0)) EventExtractionT _ _ _ _
             (site_extraction Stub.key example_input _)).
    vm_compute; reflexivity.
  - refine (proj1 (client_failure_propagates Stub.key example_input
             (Stub.start (Stub.fails_after 1)) EventDetailsT _ _ _ _
             (site_details Stub.key example_input _
                (Stub.classified true 0.95%float)
                (Stub.extracted example_input (Stub.start (Stub.fails_after 1)))
                _ _ _) _)).
    + vm_compute; reflexivity.
    + reflexivity.
    + reflexivity.
    + vm_compute; reflexivity.
  - refine (proj1 (client_failure_propagates Stub.key example_input
             (Stub.start (Stub.fails_after 2)) EventConfirmationT _ _ _ _
             (site_confirmation Stub.key example_input _
                (Stub.classified true 0.95%float)
                (Stub.extracted example_input (Stub.start (Stub.fails_after 2)))
                Stub.team_meeting
                (Stub.detailed example_input
                   (description (Stub.classified true 0.95%float))
                   (Stub.start (Stub.fails_after 2)))
                _ _ _ _) _)).
    + vm_compute; reflexivity.
    + reflexivity.
    + reflexivity.
    + vm_compute; reflexivity.
    + vm_compute; reflexivity.
Defined.

(** A score that is the literal 0.7 itself. *)
Lemma threshold_is_inclusive_witness :
  let w := Stub.start (Stub.answers true 0.7%float) in
  let descr := description (Stub.classified true 0.7%float) in
  process_calendar_request Stub.key example_input w =
    (let! details := parse_event_details Stub.key descr in
     generate_confirmation Stub.key details) (Stub.extracted example_input w)
  /\ CallParseDetails descr
     ∈ invocations (trace (process_calendar_request Stub.key example_input w).2).
Proof.
  apply (threshold_is_inclusive Stub.key example_input
           (Stub.start (Stub.answers true 0.7%float))
           (Stub.classified true 0.7%float)).
  - vm_compute; reflexivity.
  - reflexivity.
  - reflexivity.
Defined.

(** The second scenario of the specification: a question about the weather,
    classified as no event. *)
Lemma not_an_event_skips_later_stages_witness :
  let w := Stub.start (Stub.answers false 0.95%float) in
  exists w',
    process_calendar_request Stub.key Stub.weather w = (inr None, w')
    /\ invocations (trace w') = invocations (trace w) ++ [CallExtract Stub.weather]
    /\ call_count EventDetailsT (trace w') = call_count EventDetailsT (trace w)
    /\ call_count EventConfirmationT (trace w')
       = call_count EventConfirmationT (trace w).
Proof.
  apply (not_an_event_skips_later_stages Stub.key Stub.weather
           (Stub.start (Stub.answers false 0.95%float))
           (Stub.classified false 0.95%float)
           (Stub.extracted Stub.weather (Stub.start (Stub.answers false 0.95%float)))).
  - vm_compute; reflexivity.
  - reflexivity.
Defined.

(** A score of 1.5, outside [0,1], comes out of the stage as it went in. *)
Lemma extract_returns_client_value_witness :
  let w := Stub.start (Stub.answers true 1.5%float) in
  extract_event_info Stub.key example_input w
  = (inr (Some (Stub.classified true 1.5%float)),
     (extract_event_info Stub.key example_input w).2).
Proof.
  apply (extract_returns_client_value Stub.key example_input
           (Stub.start (Stub.answers true 1.5%float))
           (mkParsedChatCompletion
              [mkParsedChoice
                 (@mkParsedMessage EventExtractionT
                    (Some (Stub.classified true 1.5%float)))])
           (mkParsedChoice
              (@mkParsedMessage EventExtractionT
                 (Some (Stub.classified true 1.5%float))))
           []).
  - vm_compute; reflexivity.
  - reflexivity.
Defined.

(** The scripted confirmation has no [calendar_link] member: the stage
    returns, with the link absent. *)
Lemma confirmation_link_defaults_to_None_witness :
  let w := Stub.start [inr [Stub.confirmation_json]] in
  generate_confirmation Stub.key (Some Stub.team_meeting) w
  = (inr (Some (mkEventConfirmation "Your meeting is booked. Susie" None)),
     mkWorld []
       (trace w ++ [Invoke (CallConfirm (Some Stub.team_meeting));
                    Request (confirmation_request Stub.team_meeting)])).
Proof.
  apply (proj1 (confirmation_link_defaults_to_None Stub.key Stub.team_meeting
                  (Stub.start [inr [Stub.confirmation_json]])
                  (list_to_map
                     [("confirmation_message",
                       JString "Your meeting is booked. Susie")])
                  [] [] eq_refl)
               "Your meeting is booked. Susie").
  - vm_compute; reflexivity.
  - vm_compute; reflexivity.
  - eexists; reflexivity.
Defined.

(** The service answers the extraction request with a refusal. *)
Lemma absent_payload_raises_AttributeError_witness :
  let w := Stub.start [inr [None]] in
  extract_event_info Stub.key example_input (after_log w)
  = (inr None, Stub.extracted example_input w)
  /\ process_calendar_request Stub.key example_input w =
     (inl (AttributeError "'NoneType' object has no attribute 'is_calendar_event'"),
      Stub.extracted example_input w).
Proof.
  apply (absent_payload_raises_AttributeError Stub.key example_input
           (Stub.start [inr [None]])
           (mkParsedChatCompletion
              [mkParsedChoice (@mkParsedMessage EventExtractionT None)])
           (mkParsedChoice (@mkParsedMessage EventExtractionT None)) []).
  - vm_compute; reflexivity.
  - reflexivity.
  - reflexivity.
Defined.


End OnTheTestDouble.

(** ** Further properties of the code *)

(** *** More on the comparison of binary64 numbers *)

Lemma SFcompare_refl (x : spec_float) :
  x <> S754_nan -> SFcompare x x = Some Eq.
Proof.
  destruct x as [s|s| |s m e]; simpl; try congruence; intros _.
  - destruct s; reflexivity.
  - rewrite Z.compare_refl.
    change (Pos.compare_cont Eq m m) with (m ?= m)%positive.
    rewrite Pos.compare_refl. destruct s; reflexivity.
Qed.

(** NaN is below nothing. *)
Lemma ltb_nan_l (x y : float) : is_nan x = true -> (x <? y)%float = false.
Proof.
  unfold is_nan. rewrite FloatAxioms.eqb_spec, ltb_spec. unfold SFeqb, SFltb.
  destruct (Prim2SF x) eqn:E; try reflexivity;
    rewrite SFcompare_refl by discriminate; discriminate.
Qed.

Lemma SFleb_SFltb_trans (x y z : spec_float) :
  SFleb x y = true -> SFltb y z = true -> SFltb x z = true.
Proof.
  unfold SFleb, SFltb.
  destruct x as [sx|sx| |sx mx ex], y as [sy|sy| |sy my ey],
           z as [sz|sz| |sz mz ez];
    simpl; try discriminate; try reflexivity;
    repeat match goal with s : bool |- _ => destruct s end;
    simpl; try discriminate; try reflexivity.
  all: change (Pos.compare_cont Eq ?a ?b) with (a ?= b)%positive.
  all: repeat match goal with
       | |- context [(?a ?= ?b)%Z] => destruct (Z.compare_spec a b)
       | |- context [(?a ?= ?b)%positive] => destruct (Pos.compare_spec a b)
       end; simpl; try discriminate; try reflexivity; try lia.
Qed.

Lemma leb_ltb_trans (x y z : float) :
  (x <=? y)%float = true -> (y <? z)%float = true -> (x <? z)%float = true.
Proof. rewrite leb_spec, !ltb_spec. apply SFleb_SFltb_trans. Qed.

Section Runs.
Context `{Platform}.
Variable client : OpenAI.

Implicit Types (w : world) (u : string).

(** *** Every run has one of five shapes *)

Lemma trace_after_extraction u w r w1 :
  extract_event_info client u (after_log w) = (r, w1) ->
  trace w1 = trace w ++ extraction_events (strftime_now (outside w)) u.
Proof.
  intros E. rewrite (extract_event_info_trace _ _ _ _ _ E). cbn.
  now rewrite <- app_assoc.
Qed.

Lemma trace_after_details descr w1 r w2 :
  parse_event_details client descr w1 = (r, w2) ->
  trace w2 = trace w1 ++ details_events (strftime_now (outside w1)) descr.
Proof. apply parse_event_details_trace. Qed.

Lemma process_run_shape u w :
  exists evs,
    trace (process_calendar_request client u w).2 = trace w ++ evs
    /\ run_shape u evs (process_calendar_request client u w).1.
Proof.
  destruct (extract_event_info client u (after_log w)) as [[e|[ex|]] w1] eqn:E1.
  - rewrite (process_extraction_raises _ _ _ _ _ E1). cbn [fst snd].
    eexists. split; [exact (trace_after_extraction _ _ _ _ E1)|].
    constructor.
  - rewrite (process_extraction_Some _ _ _ _ _ E1).
    destruct (is_calendar_event ex) eqn:Hev; cbn [negb orb];
      [destruct (confidence_score ex <? threshold)%float eqn:Hconf|].
    + cbn. rewrite (trace_after_extraction _ _ _ _ E1), <- app_assoc.
      eexists. split; [reflexivity|]. constructor.
    + unfold bind.
      destruct (parse_event_details client (description ex) w1)
        as [[e|[d|]] w2] eqn:E2.
      * cbn [fst snd].
        rewrite (trace_after_details _ _ _ _ E2),
          (trace_after_extraction _ _ _ _ E1), <- app_assoc.
        eexists. split; [reflexivity|]. apply run_stops_at_details; trivial.
      * destruct (generate_confirmation client (Some d) w2) as [r w3] eqn:E3.
        cbn [fst snd].
        rewrite (generate_confirmation_trace _ _ _ _ _ E3),
          (trace_after_details _ _ _ _ E2),
          (trace_after_extraction _ _ _ _ E1), <- !app_assoc.
        eexists. split; [reflexivity|]. apply run_to_confirmation; trivial.
      * rewrite generate_confirmation_None_eq. cbn [fst snd emit trace].
        rewrite (trace_after_details _ _ _ _ E2),
          (trace_after_extraction _ _ _ _ E1), <- !app_assoc.
        eexists. split; [reflexivity|]. apply run_without_details; trivial.
    + cbn. rewrite (trace_after_extraction _ _ _ _ E1), <- app_assoc.
      eexists. split; [reflexivity|]. constructor.
  - rewrite (process_extraction_None _ _ _ _ E1). cbn [fst snd].
    eexists. split; [exact (trace_after_extraction _ _ _ _ E1)|].
    constructor.
Qed.

Lemma run_shape_prints_nothing u evs r : run_shape u evs r -> printed evs = [].
Proof. now destruct 1. Qed.

(** The events a run adds once the extraction is accepted begin with the
    call of the detail-parsing stage. *)
Lemma accepted_run_enters_details descr w1 :
  exists evs,
    trace ((let! details := parse_event_details client descr in
            generate_confirmation client details) w1).2
    = trace w1 ++ Invoke (CallParseDetails descr) :: evs.
Proof.
  unfold bind.
  destruct (parse_event_details client descr w1) as [[e|d] w2] eqn:E2.
  - cbn [snd]. rewrite (trace_after_details _ _ _ _ E2). eauto.
  - destruct (generate_confirmation client d w2) as [r w3] eqn:E3. cbn [snd].
    rewrite (generate_confirmation_trace _ _ _ _ _ E3),
      (trace_after_details _ _ _ _ E2), <- app_assoc. cbn. eauto.
Qed.

(** *** What a run sends, and in which order *)

(** X3.  Whatever the service does, a run of [process_calendar_request]
    sends at least one request and at most three, and the classes they ask
    for are, in order, a beginning of [EventExtraction], [EventDetails],
    [EventConfirmation]: no stage is called twice, skipped or called out of
    turn. *)
Theorem requests_follow_stage_order u w :
  exists evs,
    trace (process_calendar_request client u w).2 = trace w ++ evs
    /\ req_response_format <$> requests evs
       `prefix_of` [EventExtractionT; EventDetailsT; EventConfirmationT]
    /\ requests evs <> [].
Proof.
  destruct (process_run_shape u w) as (evs & Htr & Hshape).
  exists evs. split; [exact Htr|].
  destruct Hshape; cbn; (split; [|discriminate]).
  - now exists [EventDetailsT; EventConfirmationT].
  - now exists [EventDetailsT; EventConfirmationT].
  - now exists [EventConfirmationT].
  - now exists [EventConfirmationT].
  - now exists [].
Qed.

(** X4.  Every request of a run names the model of line 17 and carries two
    messages, a [system] one then a [user] one; the first request's user
    message is the input of the run, character for character. *)
Theorem requests_are_well_formed u w :
  exists evs,
    trace (process_calendar_request client u w).2 = trace w ++ evs
    /\ Forall (fun r => req_model r = model
                        /\ role <$> req_messages r = ["system"; "user"])
         (requests evs)
    /\ (head (requests evs) ≫= fun r => req_messages r !! 1)
       = Some (mkMessage "user" u).
Proof.
  destruct (process_run_shape u w) as (evs & Htr & Hshape).
  exists evs. split; [exact Htr|].
  destruct Hshape; cbn; (split; [|reflexivity]);
    repeat (constructor; [now split|]); constructor.
Qed.

(** X5.  A run returns a confirmation only after all three stages: the
    extraction stage returned an extraction, and that extraction passed the
    test of line 75; the detail-parsing stage, run on its description,
    returned details that are not [None]; the confirmation stage, run on
    those details, returned the very confirmation the run returns.  The
    stage functions were entered in that order, once each, and three
    requests were sent, one per class. *)
Theorem confirmation_follows_three_stages u w r w' :
  process_calendar_request client u w = (inr (Some r), w') ->
  exists extraction w1 details w2,
    extract_event_info client u (after_log w) = (inr (Some extraction), w1)
    /\ is_calendar_event extraction = true
    /\ (confidence_score extraction <? threshold)%float = false
    /\ parse_event_details client (description extraction) w1
       = (inr (Some details), w2)
    /\ generate_confirmation client (Some details) w2 = (inr (Some r), w')
    /\ exists evs,
         trace w' = trace w ++ evs
         /\ invocations evs =
            [CallExtract u; CallParseDetails (description extraction);
             CallConfirm (Some details)]
         /\ req_response_format <$> requests evs
            = [EventExtractionT; EventDetailsT; EventConfirmationT].
Proof.
  intros E.
  destruct (extract_event_info client u (after_log w)) as [[e|[ex|]] w1] eqn:E1.
  - rewrite (process_extraction_raises _ _ _ _ _ E1) in E. discriminate.
  - rewrite (process_extraction_Some _ _ _ _ _ E1) in E.
    destruct (is_calendar_event ex) eqn:Hev; cbn [negb orb] in E;
      [|discriminate].
    destruct (confidence_score ex <? threshold)%float eqn:Hconf;
      [discriminate|].
    unfold bind in E.
    destruct (parse_event_details client (description ex) w1)
      as [[e|[d|]] w2] eqn:E2; [discriminate| |].
    + exists ex, w1, d, w2. repeat (split; [trivial|]).
      eexists. split.
      * rewrite (generate_confirmation_trace _ _ _ _ _ E),
          (trace_after_details _ _ _ _ E2),
          (trace_after_extraction _ _ _ _ E1), <- !app_assoc. reflexivity.
      * split; reflexivity.
    + rewrite generate_confirmation_None_eq in E. discriminate.
  - rewrite (process_extraction_None _ _ _ _ E1) in E. discriminate.
Qed.

(** *** The test of line 75 *)

(** X6.  Once the extraction is in, the run ends in the rejection (it
    returns [None] right after logging it) exactly when the extraction says
    "no calendar event" or its score is below 0.7. *)
Theorem rejected_iff_not_event_or_low u w extraction w1 :
  extract_event_info client u (after_log w) = (inr (Some extraction), w1) ->
  process_calendar_request client u w
  = (inr None, emit (Log "Not a calendar event or low confidence.") w1)
  <-> is_calendar_event extraction = false
      \/ (confidence_score extraction <? threshold)%float = true.
Proof.
  intros E1. rewrite (process_extraction_Some _ _ _ _ _ E1).
  destruct (is_calendar_event extraction); cbn [negb orb]; [|now intuition].
  destruct (confidence_score extraction <? threshold)%float; [now intuition|].
  split; [|intros [|]; discriminate].
  intros Heq.
  destruct (accepted_run_enters_details (description extraction) w1)
    as (evs & Htr).
  rewrite Heq in Htr. cbn in Htr. apply app_inv_head in Htr. discriminate.
Qed.

(** X7.  The test does not stop a score that is not a number: with
    [is_calendar_event] true and a NaN score the run goes on to the detail
    parsing and the confirmation. *)
Theorem nan_score_is_accepted u w extraction w1 :
  extract_event_info client u (after_log w) = (inr (Some extraction), w1) ->
  is_calendar_event extraction = true ->
  is_nan (confidence_score extraction) = true ->
  process_calendar_request client u w =
    (let! details := parse_event_details client (description extraction) in
     generate_confirmation client details) w1.
Proof.
  intros E1 Hev Hnan.
  now rewrite (process_extraction_Some _ _ _ _ _ E1), Hev, (ltb_nan_l _ _ Hnan).
Qed.

(** X8.  The test is monotone in the score: if a run was not rejected, a
    run whose extraction is an event with a score at least as high is not
    rejected either and goes on to the later stages. *)
Theorem acceptance_is_monotone u w extraction w1 u' w' extraction' w1' :
  extract_event_info client u (after_log w) = (inr (Some extraction), w1) ->
  extract_event_info client u' (after_log w') = (inr (Some extraction'), w1') ->
  is_calendar_event extraction' = true ->
  (confidence_score extraction <=? confidence_score extraction')%float = true ->
  process_calendar_request client u w
  <> (inr None, emit (Log "Not a calendar event or low confidence.") w1) ->
  process_calendar_request client u' w' =
    (let! details := parse_event_details client (description extraction') in
     generate_confirmation client details) w1'.
Proof.
  intros E1 E1' Hev' Hle Hnot.
  rewrite (process_extraction_Some _ _ _ _ _ E1) in Hnot.
  rewrite (process_extraction_Some _ _ _ _ _ E1'), Hev'. cbn [negb orb].
  destruct (confidence_score extraction' <? threshold)%float eqn:Hlt';
    [|reflexivity].
  rewrite (leb_ltb_trans _ _ _ Hle Hlt'), orb_true_r in Hnot.
  now destruct Hnot.
Qed.

(** *** Empty and absent answers *)

(** X9.  At each of the three places where the orchestrator calls the
    client, a completion that comes back with no choice at all makes
    [choices[0]] fail: the run raises [IndexError], in the world the call
    left, and goes no further. *)
Theorem empty_choices_raise_IndexError u w T msgs w_at completion w' :
  call_site client u w T msgs w_at ->
  completions_parse client model msgs T w_at = (inr completion, w') ->
  choices completion = [] ->
  process_calendar_request client u w
  = (inl (IndexError "list index out of range"), w').
Proof.
  intros Hsite Hcall Hnil.
  destruct Hsite as [|extraction w1 E1 Hev Hconf
                     |extraction w1 details w2 E1 Hev Hconf E2].
  - apply process_extraction_raises.
    rewrite extract_event_info_eq, first_parsed_eq. cbn.
    now rewrite Hcall, Hnil.
  - rewrite (process_extraction_Some _ _ _ _ _ E1), Hev, Hconf. cbn.
    unfold bind. rewrite parse_event_details_eq, first_parsed_eq.
    now rewrite Hcall, Hnil.
  - rewrite (process_extraction_Some _ _ _ _ _ E1), Hev, Hconf. cbn.
    unfold bind. rewrite E2, generate_confirmation_Some_eq, first_parsed_eq.
    now rewrite Hcall, Hnil.
Qed.

(** *** The detail-parsing stage and the class [EventDetails] *)

(** X10.  When the service answers the detail-parsing request with an
    object that lacks one of [name], [date], [duration_minutes] and
    [participants], the stage gives no details: it raises the validation
    error of [EventDetails], that one request having been sent. *)
Theorem details_missing_field_is_ValidationError descr w o rest out' :
  post client (details_request (strftime_now (outside w)) descr) (outside w)
    = (inr (Some (JObject o) :: rest), out') ->
  o !! "name" = None \/ o !! "date" = None
  \/ o !! "duration_minutes" = None \/ o !! "participants" = None ->
  parse_event_details client descr w =
  (inl (ValidationError EventDetailsT),
   mkWorld out' (trace w ++ details_events (strftime_now (outside w)) descr)).
Proof.
  intros Hpost Hmiss.
  rewrite parse_event_details_eq, first_parsed_eq.
  unfold completions_parse. cbn [emit outside trace].
  fold (details_request (strftime_now (outside w)) descr). rewrite Hpost.
  cbn [parse_choices parse_choice model_validate].
  assert (Hnone : validate_EventDetails o = None).
  { unfold validate_EventDetails, required.
    destruct Hmiss as [Hm|[Hm|[Hm|Hm]]]; rewrite Hm; cbn;
      repeat (match goal with
              | |- context [?x ≫= _] => destruct x; cbn
              end); reflexivity. }
  rewrite Hnone. cbn. now rewrite <- app_assoc.
Qed.

(** X11.  When the answer has the four fields, the stage returns them as
    validated one by one, whatever they are: a negative duration, a date
    that is no date or an empty list of participants are not looked at. *)
Theorem details_are_returned_unchecked descr w o rest out' n d m p :
  post client (details_request (strftime_now (outside w)) descr) (outside w)
    = (inr (Some (JObject o) :: rest), out') ->
  is_Some (parse_choices EventDetailsT rest) ->
  required validate_str "name" o = Some n ->
  required validate_str "date" o = Some d ->
  required validate_int "duration_minutes" o = Some m ->
  required (validate_list validate_str) "participants" o = Some p ->
  parse_event_details client descr w =
  (inr (Some (mkEventDetails n d m p)),
   mkWorld out' (trace w ++ details_events (strftime_now (outside w)) descr)).
Proof.
  intros Hpost [chs Hrest] Hn Hd Hm Hp.
  rewrite parse_event_details_eq, first_parsed_eq.
  unfold completions_parse. cbn [emit outside trace].
  fold (details_request (strftime_now (outside w)) descr). rewrite Hpost.
  cbn [parse_choices parse_choice model_validate].
  unfold validate_EventDetails. rewrite Hn, Hd, Hm, Hp. cbn.
  rewrite Hrest. cbn. now rewrite <- app_assoc.
Qed.

End Runs.

(** *** The module run as a script *)

Section Script.
Context `{Platform}.

Implicit Types (w : world) (environ : gmap string string).

Lemma printed_app (tr1 tr2 : list event) :
  printed (tr1 ++ tr2) = printed tr1 ++ printed tr2.
Proof. apply omap_app. Qed.

(** With a credential, the script is the orchestrator on the example input
    followed by the printing of lines 84-89. *)
Lemma main_with_credential environ w :
  truthy (environ !! "OPENAI_API_KEY") = true ->
  main environ w =
  (let! result :=
     process_calendar_request (mkOpenAI (environ !! "OPENAI_API_KEY"))
       example_input in
   match result with
   | Some r =>
     print ("Confirmation: " +:+ confirmation_message r) ;;;
     if truthy (calendar_link r)
     then print ("Calendar Link: " +:+ default "" (calendar_link r))
     else ret tt
   | None => print "This doesn't appear to be a calendar event."
   end) w.
Proof. unfold main, startup, getenv. now intros ->. Qed.

Lemma main_without_credential environ w :
  truthy (environ !! "OPENAI_API_KEY") = false ->
  main environ w = (inl (ValueError credential_diagnostic), w).
Proof. unfold main, startup, getenv. now intros ->. Qed.

(** X13.  What the script prints is fixed by how far it got.  When
    start-up raises, or the pipeline run on the example input raises,
    nothing is printed.  When the pipeline returns [None], the one line
    saying that this is no calendar event is printed.  When it returns a
    confirmation, the lines printed are that confirmation's message and
    then, if its calendar link is a non-empty string, that link.  The
    pipeline itself prints nothing.  (Writing a line to standard output is
    taken to succeed.) *)
Theorem main_prints_what_the_pipeline_returned environ w :
  let run :=
    match startup environ with
    | inl e => (inl e, w)
    | inr client => process_calendar_request client example_input w
    end in
  exists evs,
    trace (main environ w).2 = trace w ++ evs
    /\ printed evs =
       match run.1 with
       | inl _ => []
       | inr None => ["This doesn't appear to be a calendar event."]
       | inr (Some r) =>
         ("Confirmation: " +:+ confirmation_message r)
         :: (if truthy (calendar_link r)
             then ["Calendar Link: " +:+ default "" (calendar_link r)]
             else [])
       end.
Proof.
  cbv zeta.
  destruct (truthy (environ !! "OPENAI_API_KEY")) eqn:Hkey.
  - rewrite (main_with_credential _ _ Hkey). unfold bind.
    unfold startup, getenv. rewrite Hkey. cbn [negb].
    destruct (process_run_shape (mkOpenAI (environ !! "OPENAI_API_KEY"))
                example_input w) as (evs & Htr & Hshape).
    apply run_shape_prints_nothing in Hshape.
    destruct (process_calendar_request _ _ _) as [[e|[r|]] w1];
      cbn [fst snd] in Htr |- *.
    + exists evs. split; assumption.
    + destruct (truthy (calendar_link r)) eqn:Hlink.
      * exists (evs ++ [Print ("Confirmation: " +:+ confirmation_message r);
                        Print ("Calendar Link: " +:+ default "" (calendar_link r))]).
        cbn. rewrite Htr, <- !app_assoc. split; [reflexivity|].
        rewrite printed_app, Hshape. reflexivity.
      * exists (evs ++ [Print ("Confirmation: " +:+ confirmation_message r)]).
        cbn. rewrite Htr, <- !app_assoc. split; [reflexivity|].
        rewrite printed_app, Hshape. reflexivity.
    + exists (evs ++ [Print "This doesn't appear to be a calendar event."]).
      cbn. rewrite Htr, <- !app_assoc. split; [reflexivity|].
      rewrite printed_app, Hshape. reflexivity.
  - rewrite (main_without_credential _ _ Hkey).
    unfold startup, getenv. rewrite Hkey. cbn.
    exists []. now rewrite app_nil_r.
Qed.

End Script.

(** *** The further properties on the test double *)

Section MoreOnTheTestDouble.
#[local] Existing Instance Stub.scripted.

(** The service refuses the detail-parsing request. *)
Lemma absent_details_raise_AttributeError_witness :
  let w := Stub.start (Stub.ends_with 1 [None]) in
  let descr := description (Stub.classified true 0.95%float) in
  process_calendar_request Stub.key example_input w =
  (inl (AttributeError "'NoneType' object has no attribute 'model_dump'"),
   emit (Invoke (CallConfirm None)) (Stub.detailed example_input descr w)).
Proof.
  apply (absent_details_raise_AttributeError Stub.key example_input
           (Stub.start (Stub.ends_with 1 [None]))
           (Stub.classified true 0.95%float)
           (Stub.extracted example_input (Stub.start (Stub.ends_with 1 [None])))).
  - vm_compute; reflexivity.
  - reflexivity.
  - reflexivity.
  - vm_compute; reflexivity.
Defined.

(** The service refuses the confirmation request. *)
Lemma absent_confirmation_is_returned_witness :
  let w := Stub.start (Stub.ends_with 2 [None]) in
  process_calendar_request Stub.key example_input w
  = (inr None, (process_calendar_request Stub.key example_input w).2).
Proof.
  apply (absent_confirmation_is_returned Stub.key example_input
           (Stub.start (Stub.ends_with 2 [None]))
           (Stub.classified true 0.95%float)
           (Stub.extracted example_input (Stub.start (Stub.ends_with 2 [None])))
           (Some Stub.team_meeting)
           (Stub.detailed example_input
              (description (Stub.classified true 0.95%float))
              (Stub.start (Stub.ends_with 2 [None])))).
  - vm_compute; reflexivity.
  - reflexivity.
  - reflexivity.
  - vm_compute; reflexivity.
  - vm_compute; reflexivity.
Defined.

(** The scenario of the specification, read backwards from its result. *)
Lemma confirmation_follows_three_stages_witness :
  let w := Stub.start (Stub.answers true 0.95%float) in
  let w' := (process_calendar_request Stub.key example_input w).2 in
  exists extraction w1 details w2,
    extract_event_info Stub.key example_input (after_log w)
    = (inr (Some extraction), w1)
    /\ is_calendar_event extraction = true
    /\ (confidence_score extraction <? threshold)%float = false
    /\ parse_event_details Stub.key (description extraction) w1
       = (inr (Some details), w2)
    /\ generate_confirmation Stub.key (Some details) w2
       = (inr (Some Stub.booked), w')
    /\ exists evs,
         trace w' = trace w ++ evs
         /\ invocations evs =
            [CallExtract example_input;
             CallParseDetails (description extraction);
             CallConfirm (Some details)]
         /\ req_response_format <$> requests evs
            = [EventExtractionT; EventDetailsT; EventConfirmationT].
Proof.
  apply (confirmation_follows_three_stages Stub.key example_input
           (Stub.start (Stub.answers true 0.95%float)) Stub.booked).
  vm_compute; reflexivity.
Defined.

(** A score of 0.5: both sides of the equivalence hold. *)
Lemma rejected_iff_not_event_or_low_witness :
  let w := Stub.start (Stub.answers true 0.5%float) in
  process_calendar_request Stub.key example_input w
  = (inr None,
     emit (Log "Not a calendar event or low confidence.")
       (Stub.extracted example_input w))
  <-> is_calendar_event (Stub.classified true 0.5%float) = false
      \/ (confidence_score (Stub.classified true 0.5%float) <? threshold)%float
         = true.
Proof.
  apply (rejected_iff_not_event_or_low Stub.key example_input
           (Stub.start (Stub.answers true 0.5%float))
           (Stub.classified true 0.5%float)).
  vm_compute; reflexivity.
Defined.

(** A score that is not a number. *)
Lemma nan_score_is_accepted_witness :
  let w := Stub.start (Stub.answers true nan) in
  process_calendar_request Stub.key example_input w =
    (let! details :=
       parse_event_details Stub.key (description (Stub.classified true nan)) in
     generate_confirmation Stub.key details) (Stub.extracted example_input w).
Proof.
  apply (nan_score_is_accepted Stub.key example_input
           (Stub.start (Stub.answers true nan)) (Stub.classified true nan)).
  - vm_compute; reflexivity.
  - reflexivity.
  - reflexivity.
Defined.

(** A run at 0.8 is accepted, hence so is one at 0.9. *)
Lemma acceptance_is_monotone_witness :
  let w' := Stub.start (Stub.answers true 0.9%float) in
  process_calendar_request Stub.key Stub.weather w' =
    (let! details :=
       parse_event_details Stub.key
         (description (Stub.classified true 0.9%float)) in
     generate_confirmation Stub.key details) (Stub.extracted Stub.weather w').
Proof.
  apply (acceptance_is_monotone Stub.key example_input
           (Stub.start (Stub.answers true 0.8%float))
           (Stub.classified true 0.8%float)
           (Stub.extracted example_input (Stub.start (Stub.answers true 0.8%float)))
           Stub.weather (Stub.start (Stub.answers true 0.9%float))
           (Stub.classified true 0.9%float)).
  - vm_compute; reflexivity.
  - vm_compute; reflexivity.
  - reflexivity.
  - reflexivity.
  - intros Heq. vm_compute in Heq. discriminate Heq.
Defined.

(** The service answers without any choice, first to the extraction
    request, then to the detail-parsing one. *)
Lemma empty_choices_raise_IndexError_witness :
  (let w := Stub.start (Stub.ends_with 0 []) in
   process_calendar_request Stub.key example_input w
   = (inl (IndexError "list index out of range"),
      (process_calendar_request Stub.key example_input w).2))
  /\ (let w := Stub.start (Stub.ends_with 1 []) in
      process_calendar_request Stub.key example_input w
      = (inl (IndexError "list index out of range"),
         (process_calendar_request Stub.key example_input w).2)).
Proof.
  split.
  - apply (empty_choices_raise_IndexError Stub.key example_input
             (Stub.start (Stub.ends_with 0 [])) EventExtractionT _ _
             (mkParsedChatCompletion []) _
             (site_extraction Stub.key example_input _)).
    + vm_compute; reflexivity.
    + reflexivity.
  - refine (empty_choices_raise_IndexError Stub.key example_input
             (Stub.start (Stub.ends_with 1 [])) EventDetailsT _ _
             (mkParsedChatCompletion []) _
             (site_details Stub.key example_input _
                (Stub.classified true 0.95%float)
                (Stub.extracted example_input (Stub.start (Stub.ends_with 1 [])))
                _ _ _) _ _).
    + vm_compute; reflexivity.
    + reflexivity.
    + reflexivity.
    + vm_compute; reflexivity.
    + reflexivity.
Defined.

(** An answer without [date]. *)
Lemma details_missing_field_is_ValidationError_witness :
  let w := Stub.start [inr [Some (JObject Stub.undated)]] in
  parse_event_details Stub.key "team meeting" w =
  (inl (ValidationError EventDetailsT),
   mkWorld []
     (trace w ++ details_events (strftime_now (outside w)) "team meeting")).
Proof.
  apply (details_missing_field_is_ValidationError Stub.key "team meeting"
           (Stub.start [inr [Some (JObject Stub.undated)]]) Stub.undated [] []).
  - reflexivity.
  - right; left. vm_compute; reflexivity.
Defined.

(** A duration of -60 minutes on "next Tuesday", with nobody. *)
Lemma details_are_returned_unchecked_witness :
  let w := Stub.start [inr [Stub.odd_details_json]] in
  parse_event_details Stub.key "team meeting" w =
  (inr (Some Stub.odd_details),
   mkWorld []
     (trace w ++ details_events (strftime_now (outside w)) "team meeting")).
Proof.
  apply (details_are_returned_unchecked Stub.key "team meeting"
           (Stub.start [inr [Stub.odd_details_json]])
           (list_to_map
              [("name", JString "Team Meeting"); ("date", JString "next Tuesday");
               ("duration_minutes", JInt (-60)); ("participants", JArray [])])
           [] []).
  - reflexivity.
  - eexists; reflexivity.
  - vm_compute; reflexivity.
  - vm_compute; reflexivity.
  - vm_compute; reflexivity.
  - vm_compute; reflexivity.
Defined.

End MoreOnTheTestDouble.
